(** * Task Management Microservice (myapp.py): store and handlers

    A shallow embedding of the five task handlers of [myapp.py] and of the
    two module globals they share, [tasks_db] and [task_id_counter].

    - Python [int] is unbounded: task ids and the counter are [Z].
    - [datetime.now()] is the one input a handler reads besides its
      arguments; the value it returned in a call is the argument [now] of
      the handler.  A [datetime] is a point on the time line, here a [Z]
      (microseconds), compared with [<=].
    - [tasks_db] is a Python [dict]: keys are unique, iteration follows
      insertion order, assigning to a present key keeps its position and
      assigning to an absent key appends.  It is an association list.
    - A handler either returns or raises; the globals it has written
      before raising stay written.  [handler A] threads the globals and
      carries the exception. *)

From Stdlib Require Import ZArith List String Bool Lia Sorted.
From Stdlib Require Import DecimalString.
Import ListNotations.
Local Open Scope string_scope.
Local Open Scope list_scope.
Local Open Scope Z_scope.

(** ** Data model *)

Inductive TaskStatus : Type :=
| PENDING
| IN_PROGRESS
| COMPLETED
| CANCELLED.

(** The string value of each member ([class TaskStatus(str, Enum)]). *)
Definition TaskStatus_value (s : TaskStatus) : string :=
  match s with
  | PENDING => "pending"
  | IN_PROGRESS => "in_progress"
  | COMPLETED => "completed"
  | CANCELLED => "cancelled"
  end.

Definition datetime : Type := Z.

Record TaskCreate : Type := mkTaskCreate {
  tc_description : string;
  tc_status : TaskStatus
}.

(** [TaskCreate(description=..., status=...)]: [status] defaults to
    [TaskStatus.PENDING] when the body does not give it. *)
Definition TaskCreate_new (description : string) (status : option TaskStatus)
  : TaskCreate :=
  mkTaskCreate description
    (match status with Some s => s | None => PENDING end).

Record TaskUpdate : Type := mkTaskUpdate {
  tu_status : TaskStatus
}.

Record Task : Type := mkTask {
  id : Z;
  description : string;
  status : TaskStatus;
  created_at : datetime;
  updated_at : datetime
}.

(** ** The dict behind [tasks_db] *)

Module Dict.

Definition t : Type := list (Z * Task).

Definition empty : t := [].

(** [k in d] *)
Fixpoint contains (k : Z) (d : t) : bool :=
  match d with
  | [] => false
  | (k', _) :: d' => if Z.eqb k k' then true else contains k d'
  end.

(** [d[k]], [None] where Python raises [KeyError] *)
Fixpoint getitem (k : Z) (d : t) : option Task :=
  match d with
  | [] => None
  | (k', v) :: d' => if Z.eqb k k' then Some v else getitem k d'
  end.

(** [d[k] = v]: in place when [k] is present, appended otherwise *)
Fixpoint setitem (k : Z) (v : Task) (d : t) : t :=
  match d with
  | [] => [(k, v)]
  | (k', v') :: d' =>
      if Z.eqb k k' then (k, v) :: d' else (k', v') :: setitem k v d'
  end.

(** [del d[k]] on a present key *)
Fixpoint delitem (k : Z) (d : t) : t :=
  match d with
  | [] => []
  | (k', v') :: d' =>
      if Z.eqb k k' then d' else (k', v') :: delitem k d'
  end.

(** [d.keys()] and [d.values()], in iteration order *)
Definition keys (d : t) : list Z := map fst d.
Definition values (d : t) : list Task := map snd d.

End Dict.

(** ** Globals, exceptions and the handler monad *)

Record globals : Type := mkGlobals {
  tasks_db : Dict.t;
  task_id_counter : Z
}.

(** The module as loaded: [tasks_db = {}], [task_id_counter = 0]. *)
Definition initial : globals := mkGlobals Dict.empty 0.

Inductive exception : Type :=
| HTTPException (status_code : Z) (detail : string)
| KeyError (key : Z).

Inductive outcome (A : Type) : Type :=
| Returned (a : A)
| Raised (e : exception).
Arguments Returned {A} a.
Arguments Raised {A} e.

Definition handler (A : Type) : Type := globals -> outcome A * globals.

Definition ret {A} (a : A) : handler A := fun g => (Returned a, g).

Definition bind {A B} (m : handler A) (k : A -> handler B) : handler B :=
  fun g =>
    match m g with
    | (Returned a, g') => k a g'
    | (Raised e, g') => (Raised e, g')
    end.

Definition raise {A} (e : exception) : handler A := fun g => (Raised e, g).

Notation "x <- m ;; k" := (bind m (fun x => k))
  (at level 61, m at next level, right associativity).
Notation "m ;;; k" := (bind m (fun _ => k))
  (at level 61, right associativity).

Definition read_tasks_db : handler Dict.t :=
  fun g => (Returned (tasks_db g), g).

Definition read_task_id_counter : handler Z :=
  fun g => (Returned (task_id_counter g), g).

Definition write_task_id_counter (n : Z) : handler unit :=
  fun g => (Returned tt, mkGlobals (tasks_db g) n).

(** [tasks_db[k]] *)
Definition tasks_db_getitem (k : Z) : handler Task :=
  fun g =>
    match Dict.getitem k (tasks_db g) with
    | Some v => (Returned v, g)
    | None => (Raised (KeyError k), g)
    end.

(** [tasks_db[k] = v] *)
Definition tasks_db_setitem (k : Z) (v : Task) : handler unit :=
  fun g =>
    (Returned tt, mkGlobals (Dict.setitem k v (tasks_db g)) (task_id_counter g)).

(** [del tasks_db[k]] *)
Definition tasks_db_delitem (k : Z) : handler unit :=
  fun g =>
    if Dict.contains k (tasks_db g)
    then (Returned tt,
          mkGlobals (Dict.delitem k (tasks_db g)) (task_id_counter g))
    else (Raised (KeyError k), g).

(** ** The 404 of [fastapi.status] and its message *)

Definition HTTP_404_NOT_FOUND : Z := 404.

(** [str(n)] of a Python [int]: decimal digits, [-] before a negative. *)
Definition str_int (n : Z) : string := NilZero.string_of_int (Z.to_int n).

(** [f"Task with ID {task_id} not found"] *)
Definition not_found_detail (task_id : Z) : string :=
  ("Task with ID " ++ str_int task_id ++ " not found")%string.

Definition NotFound (task_id : Z) : exception :=
  HTTPException HTTP_404_NOT_FOUND (not_found_detail task_id).

(** ** The handlers *)

(** [POST /tasks] *)
Definition create_task (now : datetime) (task : TaskCreate) : handler Task :=
  c <- read_task_id_counter ;;
  write_task_id_counter (c + 1) ;;;
  task_id <- read_task_id_counter ;;
  let new_task :=
    mkTask task_id (tc_description task) (tc_status task) now now in
  k <- read_task_id_counter ;;
  tasks_db_setitem k new_task ;;;
  ret new_task.

(** [GET /tasks] *)
Definition get_tasks : handler (list Task) :=
  db <- read_tasks_db ;;
  ret (Dict.values db).

(** [GET /tasks/{task_id}] *)
Definition get_task (task_id : Z) : handler Task :=
  db <- read_tasks_db ;;
  if negb (Dict.contains task_id db)
  then raise (NotFound task_id)
  else tasks_db_getitem task_id.

(** [PUT /tasks/{task_id}] *)
Definition update_task_status (now : datetime) (task_id : Z)
    (task_update : TaskUpdate) : handler Task :=
  db <- read_tasks_db ;;
  if negb (Dict.contains task_id db)
  then raise (NotFound task_id)
  else
    existing_task <- tasks_db_getitem task_id ;;
    let updated_task :=
      mkTask (id existing_task) (description existing_task)
             (tu_status task_update) (created_at existing_task) now in
    tasks_db_setitem task_id updated_task ;;;
    ret updated_task.

(** [DELETE /tasks/{task_id}] *)
Definition delete_task (task_id : Z) : handler unit :=
  db <- read_tasks_db ;;
  if negb (Dict.contains task_id db)
  then raise (NotFound task_id)
  else
    tasks_db_delitem task_id ;;;
    ret tt.

(** ** Requests, replies and runs of the service *)

(** One request as the service sees it.  [POST] and [PUT] are the two
    handlers that call [datetime.now()]; the request carries the value
    the clock gave in that call. *)
Inductive request : Type :=
| POST_tasks (now : datetime) (body : TaskCreate)
| GET_tasks
| GET_task (task_id : Z)
| PUT_task (now : datetime) (task_id : Z) (body : TaskUpdate)
| DELETE_task (task_id : Z).

Inductive reply : Type :=
| ReplyTask (t : Task)
| ReplyTasks (l : list Task)
| ReplyNone.

Definition serve (r : request) : handler reply :=
  match r with
  | POST_tasks now body => t <- create_task now body ;; ret (ReplyTask t)
  | GET_tasks => l <- get_tasks ;; ret (ReplyTasks l)
  | GET_task task_id => t <- get_task task_id ;; ret (ReplyTask t)
  | PUT_task now task_id body =>
      t <- update_task_status now task_id body ;; ret (ReplyTask t)
  | DELETE_task task_id => delete_task task_id ;;; ret ReplyNone
  end.

(** The globals after a sequence of requests, served one after another. *)
Fixpoint run (tr : list request) (g : globals) : globals :=
  match tr with
  | [] => g
  | r :: tr' => run tr' (snd (serve r g))
  end.

(** The same run, keeping what each request got back. *)
Fixpoint log (tr : list request) (g : globals)
  : list (request * outcome reply) :=
  match tr with
  | [] => []
  | r :: tr' => (r, fst (serve r g)) :: log tr' (snd (serve r g))
  end.

Definition reachable (g : globals) : Prop :=
  exists tr, run tr initial = g.

(** Clock values read along a run, oldest first. *)
Fixpoint readings (tr : list request) : list datetime :=
  match tr with
  | [] => []
  | POST_tasks now _ :: tr' => now :: readings tr'
  | PUT_task now _ _ :: tr' => now :: readings tr'
  | _ :: tr' => readings tr'
  end.

(** The clock never goes back between two calls of [datetime.now()]. *)
Definition clock_monotone (tr : list request) : Prop :=
  StronglySorted Z.le (readings tr).

Definition is_returned {A} (o : outcome A) : bool :=
  match o with Returned _ => true | Raised _ => false end.

(** Successful creates and deletes of a log. *)
Definition created (e : request * outcome reply) : bool :=
  match e with
  | (POST_tasks _ _, Returned _) => true
  | _ => false
  end.

Definition deleted (e : request * outcome reply) : bool :=
  match e with
  | (DELETE_task _, Returned _) => true
  | _ => false
  end.

(** Ids handed out by the creates of a log, oldest first. *)
Fixpoint created_ids (l : list (request * outcome reply)) : list Z :=
  match l with
  | [] => []
  | (POST_tasks _ _, Returned (ReplyTask t)) :: l' => id t :: created_ids l'
  | _ :: l' => created_ids l'
  end.

(** The scenario of the service description, step by step. *)
Definition scenario : list request :=
  [ POST_tasks 100 (TaskCreate_new "Write docs" None);
    PUT_task 105 1 (mkTaskUpdate COMPLETED);
    DELETE_task 1;
    GET_task 1;
    POST_tasks 110 (TaskCreate_new "Second task" None) ].

(** ** Invariant of the globals, counts and timestamps *)

(** An entry is filed under the id of its task, and its key is one the
    counter has handed out.  The keys stand in ascending order. *)
Definition entry_ok (counter : Z) (kv : Z * Task) : Prop :=
  0 < fst kv <= counter /\ id (snd kv) = fst kv.

Record wf (g : globals) : Prop := mkWf {
  wf_sorted : StronglySorted Z.lt (Dict.keys (tasks_db g));
  wf_entries : Forall (entry_ok (task_id_counter g)) (tasks_db g);
  wf_counter : 0 <= task_id_counter g
}.

(** How many elements of a list pass a test. *)
Definition count {A} (f : A -> bool) (l : list A) : Z :=
  Z.of_nat (List.length (filter f l)).

(** Every stored task was created no later than it was last updated, and
    last updated no later than [hi]. *)
Definition stamped (hi : datetime) (g : globals) : Prop :=
  Forall (fun t => created_at t <= updated_at t /\ updated_at t <= hi)
         (Dict.values (tasks_db g)).

(** ** The rest of the module *)

(** [GET /]: the health check, a constant JSON object. *)
Definition root : handler (list (string * string)) :=
  ret [("message", "Task Management Microservice is running");
       ("version", "1.0.0")].

Definition HTTP_400_BAD_REQUEST : Z := 400.

(** [value_error_handler(request, exc)]: builds an [HTTPException] and
    returns it.  [request] is not looked at; [str_exc] is [str(exc)]. *)
Definition value_error_handler {R : Type} (request : R) (str_exc : string)
  : handler exception :=
  ret (HTTPException HTTP_400_BAD_REQUEST str_exc).

(** The members of [TaskStatus], in the order of the class body, and the
    lookup of a member by its value, [TaskStatus(s)]; [None] where Python
    raises [ValueError]. *)
Definition TaskStatus_members : list TaskStatus :=
  [PENDING; IN_PROGRESS; COMPLETED; CANCELLED].

Definition TaskStatus_of_value (s : string) : option TaskStatus :=
  find (fun m => String.eqb (TaskStatus_value m) s) TaskStatus_members.

(** The id in the path of a request, when it has one. *)
Definition target (r : request) : option Z :=
  match r with
  | GET_task task_id => Some task_id
  | PUT_task _ task_id _ => Some task_id
  | DELETE_task task_id => Some task_id
  | _ => None
  end.

(** [a, a+1, ..., a+n-1] *)
Fixpoint Zrange (a : Z) (n : nat) : list Z :=
  match n with
  | O => []
  | S n' => a :: Zrange (a + 1) n'
  end.

(** ** The handlers on concrete inputs *)

Example not_found_detail_9999 :
  not_found_detail 9999 = "Task with ID 9999 not found".
Proof. reflexivity. Qed.

Example not_found_detail_neg :
  not_found_detail (-7) = "Task with ID -7 not found".
Proof. reflexivity. Qed.

Example not_found_detail_zero :
  not_found_detail 0 = "Task with ID 0 not found".
Proof. reflexivity. Qed.

Example scenario_log :
  map snd (log scenario initial) =
  [ Returned (ReplyTask (mkTask 1 "Write docs" PENDING 100 100));
    Returned (ReplyTask (mkTask 1 "Write docs" COMPLETED 100 105));
    Returned ReplyNone;
    Raised (HTTPException 404 "Task with ID 1 not found");
    Returned (ReplyTask (mkTask 2 "Second task" PENDING 110 110)) ].
Proof. reflexivity. Qed.

Example scenario_end :
  run scenario initial =
  mkGlobals [(2, mkTask 2 "Second task" PENDING 110 110)] 2.
Proof. reflexivity. Qed.

(** ** Facts about the dict *)

Module DictFacts.
Import Dict.

Lemma contains_In k d : contains k d = true <-> In k (keys d).
Proof.
  induction d as [|[k' v'] d IH]; simpl.
  - split; [discriminate | tauto].
  - destruct (Z.eqb_spec k k') as [->|Hne].
    + split; auto.
    + rewrite IH. split; [auto | intros [H|H]; congruence].
Qed.

Lemma contains_false_In k d : contains k d = false <-> ~ In k (keys d).
Proof.
  rewrite <- contains_In. destruct (contains k d); split; congruence.
Qed.

Lemma contains_getitem k d :
  contains k d = true <-> exists v, getitem k d = Some v.
Proof.
  induction d as [|[k' v'] d IH]; simpl.
  - split; [discriminate | intros [v H]; discriminate].
  - destruct (Z.eqb k k'); [split; eauto | exact IH].
Qed.

Lemma getitem_None k d : contains k d = false <-> getitem k d = None.
Proof.
  induction d as [|[k' v'] d IH]; simpl.
  - tauto.
  - destruct (Z.eqb k k'); [split; discriminate | exact IH].
Qed.

Lemma getitem_In k v d : getitem k d = Some v -> In (k, v) d.
Proof.
  induction d as [|[k' v'] d IH]; simpl; [discriminate|].
  destruct (Z.eqb_spec k k') as [->|Hne].
  - intros [= ->]. now left.
  - auto.
Qed.

Lemma keys_setitem_present k v d :
  contains k d = true -> keys (setitem k v d) = keys d.
Proof.
  induction d as [|[k' v'] d IH]; simpl; [discriminate|].
  destruct (Z.eqb_spec k k') as [->|Hne]; simpl.
  - reflexivity.
  - intros H. f_equal. now apply IH.
Qed.

Lemma setitem_absent k v d :
  contains k d = false -> setitem k v d = d ++ [(k, v)].
Proof.
  induction d as [|[k' v'] d IH]; simpl; [reflexivity|].
  destruct (Z.eqb k k'); [discriminate|].
  intros H. now rewrite IH.
Qed.

Lemma getitem_setitem_same k v d : getitem k (setitem k v d) = Some v.
Proof.
  induction d as [|[k' v'] d IH]; simpl.
  - now rewrite Z.eqb_refl.
  - destruct (Z.eqb k k') eqn:E; simpl.
    + now rewrite Z.eqb_refl.
    + now rewrite E.
Qed.

Lemma getitem_setitem_other k k0 v d :
  k0 <> k -> getitem k0 (setitem k v d) = getitem k0 d.
Proof.
  intros Hne. induction d as [|[k' v'] d IH]; simpl.
  - destruct (Z.eqb_spec k0 k); congruence.
  - destruct (Z.eqb_spec k k') as [->|Hk]; simpl.
    + destruct (Z.eqb_spec k0 k'); congruence.
    + now rewrite IH.
Qed.

Lemma getitem_delitem_other k k0 d :
  k0 <> k -> getitem k0 (delitem k d) = getitem k0 d.
Proof.
  intros Hne. induction d as [|[k' v'] d IH]; simpl; [reflexivity|].
  destruct (Z.eqb_spec k k') as [->|Hk]; simpl.
  - destruct (Z.eqb_spec k0 k'); congruence.
  - now rewrite IH.
Qed.

Lemma In_delitem kv k d : In kv (delitem k d) -> In kv d.
Proof.
  induction d as [|[k' v'] d IH]; simpl; [tauto|].
  destruct (Z.eqb k k'); simpl; intuition.
Qed.

Lemma In_setitem kv k v d : In kv (setitem k v d) -> kv = (k, v) \/ In kv d.
Proof.
  induction d as [|[k' v'] d IH]; simpl.
  - intuition.
  - destruct (Z.eqb k k'); simpl; intuition.
Qed.

Lemma length_delitem k d :
  contains k d = true ->
  Z.of_nat (List.length (delitem k d)) = Z.of_nat (List.length d) - 1.
Proof.
  induction d as [|[k' v'] d IH]; cbn [contains delitem]; [discriminate|].
  destruct (Z.eqb k k'); cbn [List.length]; intros H; [lia|].
  specialize (IH H). lia.
Qed.

Lemma keys_delitem_sorted k d :
  StronglySorted Z.lt (keys d) -> StronglySorted Z.lt (keys (delitem k d)).
Proof.
  induction d as [|[k' v'] d IH]; simpl; [auto|].
  intros Hs. inversion Hs as [|? ? Hs' Hall]; subst.
  destruct (Z.eqb k k'); simpl; [exact Hs'|].
  constructor; [now apply IH|].
  rewrite Forall_forall in *. intros x Hx. apply Hall.
  unfold keys in *. rewrite in_map_iff in *.
  destruct Hx as [kv [<- Hin]]. exists kv. split; [reflexivity|].
  eapply In_delitem; eauto.
Qed.

Lemma getitem_delitem_same k d :
  StronglySorted Z.lt (keys d) -> getitem k (delitem k d) = None.
Proof.
  induction d as [|[k' v'] d IH]; simpl; [reflexivity|].
  intros Hs. inversion Hs as [|? ? Hs' Hall]; subst.
  destruct (Z.eqb_spec k k') as [->|Hk]; simpl.
  - apply getitem_None, contains_false_In. intros Hin.
    rewrite Forall_forall in Hall. specialize (Hall _ Hin). lia.
  - destruct (Z.eqb_spec k k'); [congruence|]. now apply IH.
Qed.

End DictFacts.

(** ** What each handler computes *)

Section HandlerEquations.

Variable g : globals.

Lemma create_task_eq now task :
  let c := task_id_counter g + 1 in
  let new_task := mkTask c (tc_description task) (tc_status task) now now in
  create_task now task g =
  (Returned new_task, mkGlobals (Dict.setitem c new_task (tasks_db g)) c).
Proof. reflexivity. Qed.

Lemma get_tasks_eq : get_tasks g = (Returned (Dict.values (tasks_db g)), g).
Proof. reflexivity. Qed.

Lemma get_task_absent task_id :
  Dict.contains task_id (tasks_db g) = false ->
  get_task task_id g = (Raised (NotFound task_id), g).
Proof.
  intros H. unfold get_task, bind, read_tasks_db. now rewrite H.
Qed.

Lemma get_task_present task_id t :
  Dict.getitem task_id (tasks_db g) = Some t ->
  get_task task_id g = (Returned t, g).
Proof.
  intros H. unfold get_task, bind, read_tasks_db, tasks_db_getitem.
  assert (Hc : Dict.contains task_id (tasks_db g) = true)
    by (apply DictFacts.contains_getitem; eauto).
  rewrite Hc. simpl. now rewrite H.
Qed.

Lemma update_task_status_absent now task_id task_update :
  Dict.contains task_id (tasks_db g) = false ->
  update_task_status now task_id task_update g =
  (Raised (NotFound task_id), g).
Proof.
  intros H. unfold update_task_status, bind, read_tasks_db. now rewrite H.
Qed.

Lemma update_task_status_present now task_id task_update t :
  Dict.getitem task_id (tasks_db g) = Some t ->
  let updated_task :=
    mkTask (id t) (description t) (tu_status task_update)
           (created_at t) now in
  update_task_status now task_id task_update g =
  (Returned updated_task,
   mkGlobals (Dict.setitem task_id updated_task (tasks_db g))
             (task_id_counter g)).
Proof.
  intros H. unfold update_task_status, bind, read_tasks_db, tasks_db_getitem.
  assert (Hc : Dict.contains task_id (tasks_db g) = true)
    by (apply DictFacts.contains_getitem; eauto).
  rewrite Hc. simpl. now rewrite H.
Qed.

Lemma delete_task_absent task_id :
  Dict.contains task_id (tasks_db g) = false ->
  delete_task task_id g = (Raised (NotFound task_id), g).
Proof.
  intros H. unfold delete_task, bind, read_tasks_db. now rewrite H.
Qed.

Lemma delete_task_present task_id :
  Dict.contains task_id (tasks_db g) = true ->
  delete_task task_id g =
  (Returned tt,
   mkGlobals (Dict.delitem task_id (tasks_db g)) (task_id_counter g)).
Proof.
  intros H. unfold delete_task, bind, read_tasks_db, tasks_db_delitem.
  rewrite H. simpl. now rewrite H.
Qed.

End HandlerEquations.

(** A handler that raised [NotFound] found the key absent, and one that
    returned found it present. *)
Lemma delete_task_returned g task_id :
  fst (delete_task task_id g) = Returned tt ->
  Dict.contains task_id (tasks_db g) = true.
Proof.
  destruct (Dict.contains task_id (tasks_db g)) eqn:E; [reflexivity|].
  rewrite delete_task_absent by assumption. discriminate.
Qed.

(** ** The invariant holds along every run *)

Lemma StronglySorted_snoc (l : list Z) (x : Z) :
  StronglySorted Z.lt l -> Forall (fun y => y < x) l ->
  StronglySorted Z.lt (l ++ [x]).
Proof.
  induction l as [|a l IH]; simpl; intros Hs Hall.
  - repeat constructor.
  - inversion Hs as [|? ? Hs' Ha]; subst.
    inversion Hall as [|? ? Hax Hall']; subst.
    constructor; [now apply IH|].
    apply Forall_app. split; [assumption | now constructor].
Qed.

Lemma wf_counter_absent g k :
  wf g -> task_id_counter g < k -> Dict.contains k (tasks_db g) = false.
Proof.
  intros [_ He _] Hk. apply DictFacts.contains_false_In. intros Hin.
  unfold Dict.keys in Hin. apply in_map_iff in Hin.
  destruct Hin as [kv [<- Hin]].
  rewrite Forall_forall in He. destruct (He _ Hin) as [Hle _]. lia.
Qed.

Lemma wf_initial : wf initial.
Proof. split; simpl; try constructor; lia. Qed.

Lemma wf_create_task g now task : wf g -> wf (snd (create_task now task g)).
Proof.
  intros Hwf. rewrite create_task_eq. cbn [snd tasks_db task_id_counter].
  assert (Habs : Dict.contains (task_id_counter g + 1) (tasks_db g) = false)
    by (apply wf_counter_absent; [assumption | lia]).
  rewrite DictFacts.setitem_absent by assumption.
  destruct Hwf as [Hs He Hc]. split; cbn [tasks_db task_id_counter]; [| |lia].
  - unfold Dict.keys in *. rewrite map_app. simpl.
    apply StronglySorted_snoc; [assumption|].
    rewrite Forall_forall in *. intros y Hy. apply in_map_iff in Hy.
    destruct Hy as [kv [<- Hin]]. destruct (He _ Hin). lia.
  - apply Forall_app. split.
    + eapply Forall_impl; [|exact He]. intros kv [H1 H2]. split; [lia|auto].
    + constructor; [|constructor]. split; simpl; lia.
Qed.

Lemma wf_update_task_status g now task_id task_update :
  wf g -> wf (snd (update_task_status now task_id task_update g)).
Proof.
  intros Hwf.
  destruct (Dict.getitem task_id (tasks_db g)) as [t|] eqn:E.
  - rewrite (update_task_status_present g now task_id task_update t E).
    cbn [snd]. destruct Hwf as [Hs He Hc].
    assert (Hin := DictFacts.getitem_In _ _ _ E).
    rewrite Forall_forall in He. destruct (He _ Hin) as [Hle Hid].
    simpl in Hle, Hid.
    split; cbn [tasks_db task_id_counter]; [| |assumption].
    + rewrite DictFacts.keys_setitem_present; [assumption|].
      apply DictFacts.contains_getitem; eauto.
    + rewrite Forall_forall. intros kv Hkv.
      apply DictFacts.In_setitem in Hkv. destruct Hkv as [->|Hkv].
      * split; simpl; assumption.
      * now apply He.
  - apply DictFacts.getitem_None in E.
    now rewrite update_task_status_absent.
Qed.

Lemma wf_delete_task g task_id : wf g -> wf (snd (delete_task task_id g)).
Proof.
  intros Hwf.
  destruct (Dict.contains task_id (tasks_db g)) eqn:E.
  - rewrite delete_task_present by assumption. cbn [snd].
    destruct Hwf as [Hs He Hc].
    split; cbn [tasks_db task_id_counter]; [| |assumption].
    + now apply DictFacts.keys_delitem_sorted.
    + rewrite Forall_forall in *. intros kv Hkv. apply He.
      eapply DictFacts.In_delitem; eauto.
  - now rewrite delete_task_absent.
Qed.

(** [GET] requests leave the globals as they are. *)
Lemma get_task_globals g task_id : snd (get_task task_id g) = g.
Proof.
  destruct (Dict.getitem task_id (tasks_db g)) as [t|] eqn:E.
  - now rewrite (get_task_present g task_id t E).
  - apply DictFacts.getitem_None in E. now rewrite get_task_absent.
Qed.

(** The globals after one request are those its handler leaves. *)
Lemma snd_serve r g :
  snd (serve r g) =
  match r with
  | POST_tasks now body => snd (create_task now body g)
  | GET_tasks => g
  | GET_task task_id => g
  | PUT_task now task_id body => snd (update_task_status now task_id body g)
  | DELETE_task task_id => snd (delete_task task_id g)
  end.
Proof.
  destruct r as [now body| |task_id|now task_id body|task_id];
    unfold serve, bind.
  - now rewrite create_task_eq.
  - reflexivity.
  - rewrite <- (get_task_globals g task_id) at 2.
    now destruct (get_task task_id g) as [[t|e] g'].
  - now destruct (update_task_status now task_id body g) as [[t|e] g'].
  - now destruct (delete_task task_id g) as [[t|e] g'].
Qed.

Lemma wf_serve r g : wf g -> wf (snd (serve r g)).
Proof.
  intros Hwf. rewrite snd_serve.
  destruct r; auto using wf_create_task, wf_update_task_status, wf_delete_task.
Qed.

Lemma wf_run tr : forall g, wf g -> wf (run tr g).
Proof.
  induction tr as [|r tr IH]; simpl; intros g Hwf; [assumption|].
  apply IH. now apply wf_serve.
Qed.

Lemma reachable_wf g : reachable g -> wf g.
Proof. intros [tr <-]. apply wf_run, wf_initial. Qed.

(** ** One request at a time *)

Lemma fst_serve_POST g now body :
  fst (serve (POST_tasks now body) g) =
  Returned (ReplyTask (mkTask (task_id_counter g + 1) (tc_description body)
                              (tc_status body) now now)).
Proof. reflexivity. Qed.

Lemma fst_serve_DELETE g task_id :
  fst (serve (DELETE_task task_id) g) =
  if Dict.contains task_id (tasks_db g)
  then Returned ReplyNone else Raised (NotFound task_id).
Proof.
  unfold serve, bind. destruct (Dict.contains task_id (tasks_db g)) eqn:E.
  - now rewrite delete_task_present.
  - now rewrite delete_task_absent.
Qed.

Lemma counter_serve r g :
  task_id_counter (snd (serve r g)) =
  match r with
  | POST_tasks _ _ => task_id_counter g + 1
  | _ => task_id_counter g
  end.
Proof.
  rewrite snd_serve.
  destruct r as [now body| |task_id|now task_id body|task_id];
    try reflexivity.
  - destruct (Dict.getitem task_id (tasks_db g)) as [t|] eqn:E.
    + now rewrite (update_task_status_present g now task_id body t E).
    + apply DictFacts.getitem_None in E.
      now rewrite update_task_status_absent.
  - destruct (Dict.contains task_id (tasks_db g)) eqn:E.
    + now rewrite delete_task_present.
    + now rewrite delete_task_absent.
Qed.

Lemma counter_run tr : forall g, task_id_counter g <= task_id_counter (run tr g).
Proof.
  induction tr as [|r tr IH]; simpl; intros g; [lia|].
  specialize (IH (snd (serve r g))). rewrite counter_serve in IH.
  destruct r; lia.
Qed.

(** The creates of a run hand out, in order, exactly the ids between the
    counter before the run and the counter after it. *)
Lemma created_ids_run tr : forall g,
  StronglySorted Z.lt (created_ids (log tr g)) /\
  (forall k, In k (created_ids (log tr g)) <->
             task_id_counter g < k <= task_id_counter (run tr g)).
Proof.
  induction tr as [|r tr IH]; intros g.
  - simpl. split; [constructor|]. intros k. split; [tauto | lia].
  - destruct (IH (snd (serve r g))) as [Hs Hin].
    assert (Hmono := counter_run tr (snd (serve r g))).
    rewrite counter_serve in Hin, Hmono.
    destruct r as [now body| |task_id|now task_id body|task_id];
      cbn [log run created_ids]; try (split; [exact Hs | exact Hin]).
    rewrite fst_serve_POST. cbn [created_ids id]. split.
    + constructor; [exact Hs|]. rewrite Forall_forall.
      intros k Hk. apply Hin in Hk. lia.
    + intros k. cbn [In]. rewrite Hin. lia.
Qed.

(** ** Keys that stay absent *)

Lemma contains_setitem_other k k0 v d :
  k0 <> k -> Dict.contains k0 (Dict.setitem k v d) = Dict.contains k0 d.
Proof.
  intros Hne. induction d as [|[k' v'] d IH]; simpl.
  - destruct (Z.eqb_spec k0 k); congruence.
  - destruct (Z.eqb_spec k k') as [->|Hk]; simpl.
    + destruct (Z.eqb_spec k0 k'); congruence.
    + now rewrite IH.
Qed.

Lemma contains_delitem_false k k0 d :
  Dict.contains k0 d = false -> Dict.contains k0 (Dict.delitem k d) = false.
Proof.
  rewrite !DictFacts.contains_false_In. intros Hn Hin. apply Hn.
  unfold Dict.keys in *. apply in_map_iff in Hin.
  destruct Hin as [kv [<- Hin]]. apply in_map.
  eapply DictFacts.In_delitem; eauto.
Qed.

Lemma absent_serve r g k :
  Dict.contains k (tasks_db g) = false -> k <= task_id_counter g ->
  Dict.contains k (tasks_db (snd (serve r g))) = false.
Proof.
  intros Habs Hle. rewrite snd_serve.
  destruct r as [now body| |task_id|now task_id body|task_id];
    try assumption.
  - rewrite create_task_eq. cbn [snd tasks_db].
    rewrite contains_setitem_other by lia. assumption.
  - destruct (Dict.getitem task_id (tasks_db g)) as [t|] eqn:E.
    + rewrite (update_task_status_present g now task_id body t E).
      cbn [snd tasks_db]. rewrite contains_setitem_other; [assumption|].
      intros ->. apply DictFacts.getitem_None in Habs. congruence.
    + apply DictFacts.getitem_None in E.
      now rewrite update_task_status_absent.
  - destruct (Dict.contains task_id (tasks_db g)) eqn:E.
    + rewrite delete_task_present by assumption. cbn [snd tasks_db].
      now apply contains_delitem_false.
    + now rewrite delete_task_absent.
Qed.

Lemma absent_run tr : forall g k,
  Dict.contains k (tasks_db g) = false -> k <= task_id_counter g ->
  Dict.contains k (tasks_db (run tr g)) = false.
Proof.
  induction tr as [|r tr IH]; simpl; intros g k Habs Hle; [assumption|].
  apply IH.
  - now apply absent_serve.
  - rewrite counter_serve. destruct r; lia.
Qed.

(** ** Entries of a well-formed dict *)

Lemma In_getitem_sorted k v d :
  StronglySorted Z.lt (Dict.keys d) -> In (k, v) d ->
  Dict.getitem k d = Some v.
Proof.
  induction d as [|[k' v'] d IH]; simpl; [tauto|].
  intros Hs Hin. inversion Hs as [|? ? Hs' Hall]; subst.
  destruct Hin as [[= -> ->]|Hin].
  - now rewrite Z.eqb_refl.
  - destruct (Z.eqb_spec k k') as [->|Hne]; [|now apply IH].
    rewrite Forall_forall in Hall.
    assert (Hk : k' < k') by (apply Hall; apply (in_map fst _ _ Hin)). lia.
Qed.

Lemma values_ids g :
  wf g -> map id (Dict.values (tasks_db g)) = Dict.keys (tasks_db g).
Proof.
  intros [_ He _]. unfold Dict.values, Dict.keys. rewrite map_map.
  apply map_ext_in. intros kv Hin. rewrite Forall_forall in He.
  now destruct (He _ Hin).
Qed.

Lemma StronglySorted_lt_NoDup (l : list Z) : StronglySorted Z.lt l -> NoDup l.
Proof.
  induction 1 as [|a l Hs IH Hall]; constructor; [|assumption].
  intros Hin. rewrite Forall_forall in Hall. specialize (Hall _ Hin). lia.
Qed.

Lemma length_setitem_present k v d :
  Dict.contains k d = true ->
  List.length (Dict.setitem k v d) = List.length d.
Proof.
  intros H. rewrite <- (length_map fst (Dict.setitem k v d)).
  rewrite <- (length_map fst d).
  f_equal. now apply DictFacts.keys_setitem_present.
Qed.

(** ** How many entries a run leaves *)

Lemma count_cons {A} (f : A -> bool) a l :
  count f (a :: l) = (if f a then 1 else 0) + count f l.
Proof.
  unfold count. simpl. destruct (f a); cbn [List.length]; lia.
Qed.

Lemma length_serve r g :
  wf g ->
  Z.of_nat (List.length (tasks_db (snd (serve r g)))) =
  Z.of_nat (List.length (tasks_db g))
  + (if created (r, fst (serve r g)) then 1 else 0)
  - (if deleted (r, fst (serve r g)) then 1 else 0).
Proof.
  intros Hwf.
  destruct r as [now body| |task_id|now task_id body|task_id].
  - rewrite snd_serve, fst_serve_POST, create_task_eq.
    cbn [created deleted snd tasks_db].
    rewrite DictFacts.setitem_absent
      by (apply wf_counter_absent; [assumption | lia]).
    rewrite length_app. cbn [List.length]. lia.
  - rewrite snd_serve. cbn [created deleted]. lia.
  - rewrite snd_serve. cbn [created deleted]. lia.
  - rewrite snd_serve. cbn [created deleted].
    destruct (Dict.getitem task_id (tasks_db g)) as [t|] eqn:E.
    + rewrite (update_task_status_present g now task_id body t E).
      cbn [snd tasks_db]. rewrite length_setitem_present; [lia|].
      apply DictFacts.contains_getitem; eauto.
    + apply DictFacts.getitem_None in E.
      rewrite update_task_status_absent by assumption. cbn [snd]. lia.
  - rewrite snd_serve, fst_serve_DELETE.
    destruct (Dict.contains task_id (tasks_db g)) eqn:E.
    + rewrite delete_task_present by assumption.
      cbn [created deleted snd tasks_db].
      rewrite DictFacts.length_delitem by assumption. lia.
    + rewrite delete_task_absent by assumption.
      cbn [created deleted snd]. lia.
Qed.

Lemma length_run tr : forall g,
  wf g ->
  Z.of_nat (List.length (tasks_db (run tr g))) =
  Z.of_nat (List.length (tasks_db g))
  + count created (log tr g) - count deleted (log tr g).
Proof.
  induction tr as [|r tr IH]; intros g Hwf.
  - unfold count. simpl. lia.
  - cbn [run log]. rewrite !count_cons.
    rewrite IH by (now apply wf_serve).
    rewrite length_serve by assumption. lia.
Qed.

(** ** Timestamps along a run *)

Lemma stamped_weaken lo hi g : lo <= hi -> stamped lo g -> stamped hi g.
Proof.
  intros Hle. unfold stamped. apply Forall_impl. intros t [H1 H2]. lia.
Qed.

Lemma stamped_setitem hi g k v c :
  stamped hi g ->
  created_at v <= updated_at v -> updated_at v <= hi ->
  stamped hi (mkGlobals (Dict.setitem k v (tasks_db g)) c).
Proof.
  unfold stamped. cbn [tasks_db]. rewrite !Forall_forall.
  intros Hst H1 H2 t Hin. unfold Dict.values in Hin.
  apply in_map_iff in Hin. destruct Hin as [kv [<- Hin]].
  apply DictFacts.In_setitem in Hin. destruct Hin as [->|Hin].
  - simpl. lia.
  - apply Hst. unfold Dict.values. now apply in_map.
Qed.

Lemma stamped_serve r g lo :
  stamped lo g ->
  Forall (Z.le lo) (readings [r]) ->
  stamped (last (readings [r]) lo) (snd (serve r g)).
Proof.
  intros Hst Hlo. rewrite snd_serve.
  destruct r as [now body| |task_id|now task_id body|task_id];
    cbn [readings last] in *; try assumption.
  - inversion Hlo; subst. rewrite create_task_eq. cbn [snd].
    apply stamped_setitem; cbn [created_at updated_at]; try lia.
    now apply stamped_weaken with lo.
  - inversion Hlo; subst.
    destruct (Dict.getitem task_id (tasks_db g)) as [t|] eqn:E.
    + rewrite (update_task_status_present g now task_id body t E).
      cbn [snd].
      assert (Ht : created_at t <= updated_at t /\ updated_at t <= lo).
      { unfold stamped in Hst. rewrite Forall_forall in Hst. apply Hst.
        unfold Dict.values.
        apply (in_map snd _ _ (DictFacts.getitem_In _ _ _ E)). }
      apply stamped_setitem; cbn [created_at updated_at]; try lia.
      now apply stamped_weaken with lo.
    + apply DictFacts.getitem_None in E.
      rewrite update_task_status_absent by assumption. cbn [snd].
      now apply stamped_weaken with lo.
  - destruct (Dict.contains task_id (tasks_db g)) eqn:E.
    + rewrite delete_task_present by assumption. cbn [snd].
      unfold stamped in *. cbn [tasks_db]. rewrite Forall_forall in *.
      intros t Hin. apply Hst. unfold Dict.values in *.
      apply in_map_iff in Hin. destruct Hin as [kv [<- Hin]].
      apply in_map. eapply DictFacts.In_delitem; eauto.
    + now rewrite delete_task_absent.
Qed.

Lemma readings_cons r tr : readings (r :: tr) = readings [r] ++ readings tr.
Proof. destruct r; reflexivity. Qed.

Lemma readings_app tr1 tr2 :
  readings (tr1 ++ tr2) = readings tr1 ++ readings tr2.
Proof.
  induction tr1 as [|r tr1 IH]; [reflexivity|].
  rewrite <- app_comm_cons, readings_cons, IH, (readings_cons r tr1).
  now rewrite app_assoc.
Qed.

Lemma stamped_run tr : forall g lo hi,
  stamped lo g ->
  Forall (fun x => lo <= x <= hi) (readings tr) -> lo <= hi ->
  StronglySorted Z.le (readings tr) ->
  stamped hi (run tr g).
Proof.
  induction tr as [|r tr IH]; intros g lo hi Hst Hb Hle Hs.
  - simpl. now apply stamped_weaken with lo.
  - cbn [run]. rewrite readings_cons in Hb, Hs.
    apply Forall_app in Hb. destruct Hb as [Hb1 Hb2].
    assert (Hst' : stamped (last (readings [r]) lo) (snd (serve r g))).
    { apply stamped_serve; [assumption|].
      eapply Forall_impl; [|exact Hb1]. simpl. intros; lia. }
    destruct r as [now body| |task_id|now task_id body|task_id];
      cbn [readings last app] in *;
      try (now apply (IH _ lo hi)).
    + inversion Hb1; subst. inversion Hs as [|? ? Hs' Hall]; subst.
      apply (IH _ now hi); try assumption; try lia.
      rewrite Forall_forall in *. intros x Hx.
      specialize (Hb2 _ Hx). specialize (Hall _ Hx). lia.
    + inversion Hb1; subst. inversion Hs as [|? ? Hs' Hall]; subst.
      apply (IH _ now hi); try assumption; try lia.
      rewrite Forall_forall in *. intros x Hx.
      specialize (Hb2 _ Hx). specialize (Hall _ Hx). lia.
Qed.

Lemma lower_bound (l : list Z) (hi : Z) :
  Forall (fun x => x <= hi) l ->
  exists lo, lo <= hi /\ Forall (fun x => lo <= x <= hi) l.
Proof.
  induction 1 as [|a l Ha Hall [lo [Hlo IH]]].
  - exists hi. split; [lia | constructor].
  - exists (Z.min lo a). split; [lia|]. constructor; [lia|].
    eapply Forall_impl; [|exact IH]. simpl. intros; lia.
Qed.

Lemma upper_bound (l : list Z) : exists hi, Forall (fun x => x <= hi) l.
Proof.
  induction l as [|a l [hi IH]].
  - exists 0. constructor.
  - exists (Z.max hi a). constructor; [lia|].
    eapply Forall_impl; [|exact IH]. simpl. intros; lia.
Qed.

(** With a monotone clock, every task stored after a run from the empty
    store carries [created_at <= updated_at <= hi], whatever bound [hi]
    the clock stayed under. *)
Lemma stamped_from_initial tr hi :
  clock_monotone tr -> Forall (fun x => x <= hi) (readings tr) ->
  stamped hi (run tr initial).
Proof.
  intros Hs Hb. destruct (lower_bound _ _ Hb) as [lo [Hlo Hall]].
  apply (stamped_run tr initial lo hi); try assumption.
  constructor.
Qed.

Lemma StronglySorted_le_snoc_inv (l : list Z) (x : Z) :
  StronglySorted Z.le (l ++ [x]) ->
  StronglySorted Z.le l /\ Forall (fun y => y <= x) l.
Proof.
  induction l as [|a l IH]; simpl; intros Hs.
  - split; constructor.
  - inversion Hs as [|? ? Hs' Hall]; subst.
    destruct (IH Hs') as [H1 H2].
    apply Forall_app in Hall. destruct Hall as [Hal Hax].
    inversion Hax; subst.
    split; constructor; assumption.
Qed.

(** * The properties of the service *)

(** C1. Creating a task with description [D] and no status never raises,
    whatever the globals: the task returned has the counter before the
    call plus one as its id, the counter is left at that value, the status
    is pending, the description is [D], both timestamps are the one clock
    value read, and the task is stored under its id. *)
Theorem create_task_assigns_next_id (g : globals) (now : datetime) (D : string) :
  exists t,
    fst (create_task now (TaskCreate_new D None) g) = Returned t
    /\ id t = task_id_counter g + 1
    /\ task_id_counter (snd (create_task now (TaskCreate_new D None) g))
       = task_id_counter g + 1
    /\ status t = PENDING
    /\ description t = D
    /\ created_at t = updated_at t
    /\ Dict.getitem (id t)
         (tasks_db (snd (create_task now (TaskCreate_new D None) g)))
       = Some t.
Proof.
  rewrite create_task_eq. cbn [fst snd tasks_db task_id_counter].
  eexists. split; [reflexivity|]. cbn [id status description created_at
    updated_at TaskCreate_new tc_status tc_description].
  repeat split. apply DictFacts.getitem_setitem_same.
Qed.

(** C2. After any run from the empty store, with a clock that did not go
    back up to and including the update's own reading, updating a stored
    task to status [S] returns a task with status [S], an [updated_at] no
    earlier than the stored one, and the stored id, description and
    [created_at]; the returned task replaces the stored one. *)
Theorem update_task_status_present_task
    (tr : list request) (now : datetime) (task_id : Z) (S : TaskStatus)
    (old : Task) :
  clock_monotone (tr ++ [PUT_task now task_id (mkTaskUpdate S)]) ->
  Dict.getitem task_id (tasks_db (run tr initial)) = Some old ->
  exists new,
    fst (update_task_status now task_id (mkTaskUpdate S) (run tr initial))
    = Returned new
    /\ status new = S
    /\ updated_at old <= updated_at new
    /\ id new = id old
    /\ description new = description old
    /\ created_at new = created_at old
    /\ Dict.getitem task_id
         (tasks_db (snd (update_task_status now task_id (mkTaskUpdate S)
                           (run tr initial))))
       = Some new.
Proof.
  intros Hmono Hold.
  unfold clock_monotone in Hmono. rewrite readings_app in Hmono.
  cbn [readings] in Hmono.
  apply StronglySorted_le_snoc_inv in Hmono. destruct Hmono as [Hs Hb].
  assert (Hst := stamped_from_initial tr now Hs Hb).
  unfold stamped in Hst. rewrite Forall_forall in Hst.
  assert (Hin : In old (Dict.values (tasks_db (run tr initial))))
    by (apply (in_map snd _ _ (DictFacts.getitem_In _ _ _ Hold))).
  destruct (Hst _ Hin) as [_ Hle].
  rewrite (update_task_status_present _ now task_id (mkTaskUpdate S) old Hold).
  cbn [fst snd tasks_db]. eexists. split; [reflexivity|].
  cbn [status updated_at id description created_at tu_status].
  repeat split; try assumption.
  apply DictFacts.getitem_setitem_same.
Qed.

Lemma update_task_status_present_task_witness :
  clock_monotone
    ([POST_tasks 100 (TaskCreate_new "Write docs" None)]
       ++ [PUT_task 105 1 (mkTaskUpdate COMPLETED)])
  /\ exists new,
    fst (update_task_status 105 1 (mkTaskUpdate COMPLETED)
           (run [POST_tasks 100 (TaskCreate_new "Write docs" None)] initial))
    = Returned new
    /\ status new = COMPLETED
    /\ 100 <= updated_at new
    /\ id new = 1
    /\ description new = "Write docs"
    /\ created_at new = 100
    /\ Dict.getitem 1
         (tasks_db (snd (update_task_status 105 1 (mkTaskUpdate COMPLETED)
             (run [POST_tasks 100 (TaskCreate_new "Write docs" None)]
                  initial))))
       = Some new.
Proof.
  assert (Hm : clock_monotone
    ([POST_tasks 100 (TaskCreate_new "Write docs" None)]
       ++ [PUT_task 105 1 (mkTaskUpdate COMPLETED)])).
  { unfold clock_monotone. simpl. repeat constructor. discriminate. }
  split; [exact Hm|].
  exact (update_task_status_present_task
           [POST_tasks 100 (TaskCreate_new "Write docs" None)] 105 1 COMPLETED
           (mkTask 1 "Write docs" PENDING 100 100) Hm eq_refl).
Defined.

(** C3. On an id absent from the store, get, update and delete each raise
    the 404 [HTTPException] with detail ["Task with ID {id} not found"];
    on an id present in the store, each of them returns. *)
Theorem absent_id_not_found
    (g : globals) (task_id : Z) (now : datetime) (body : TaskUpdate) :
  let e := HTTPException 404
             ("Task with ID " ++ str_int task_id ++ " not found")%string in
  if Dict.contains task_id (tasks_db g)
  then is_returned (fst (get_task task_id g)) = true
       /\ is_returned (fst (update_task_status now task_id body g)) = true
       /\ is_returned (fst (delete_task task_id g)) = true
  else fst (get_task task_id g) = Raised e
       /\ fst (update_task_status now task_id body g) = Raised e
       /\ fst (delete_task task_id g) = Raised e.
Proof.
  intros e. destruct (Dict.contains task_id (tasks_db g)) eqn:E.
  - destruct (proj1 (DictFacts.contains_getitem _ _) E) as [t Ht].
    rewrite (get_task_present g task_id t Ht).
    rewrite (update_task_status_present g now task_id body t Ht).
    rewrite delete_task_present by assumption. repeat split.
  - rewrite get_task_absent, update_task_status_absent, delete_task_absent
      by assumption.
    repeat split.
Qed.

(** C4. In any run from the empty store, once [delete_task] has returned
    for an id, [get_task] on that id raises the 404 after every further
    sequence of requests, no later create hands that id out, and the ids
    handed out over the whole run are strictly increasing, hence never
    repeated. *)
Theorem deleted_id_never_reused (tr1 tr2 : list request) (task_id : Z) :
  fst (delete_task task_id (run tr1 initial)) = Returned tt ->
  let g2 := snd (delete_task task_id (run tr1 initial)) in
  fst (get_task task_id (run tr2 g2)) = Raised (NotFound task_id)
  /\ ~ In task_id (created_ids (log tr2 g2))
  /\ StronglySorted Z.lt
       (created_ids (log (tr1 ++ DELETE_task task_id :: tr2) initial)).
Proof.
  intros Hdel g2.
  assert (Hwf : wf (run tr1 initial)) by (apply wf_run, wf_initial).
  assert (Hpres := delete_task_returned _ _ Hdel).
  assert (Hg2 : g2 = mkGlobals (Dict.delitem task_id (tasks_db (run tr1 initial)))
                               (task_id_counter (run tr1 initial))).
  { unfold g2. now rewrite delete_task_present. }
  assert (Hle : task_id <= task_id_counter g2).
  { rewrite Hg2. cbn [task_id_counter]. destruct Hwf as [_ He _].
    apply DictFacts.contains_In in Hpres. unfold Dict.keys in Hpres.
    apply in_map_iff in Hpres. destruct Hpres as [kv [<- Hin]].
    rewrite Forall_forall in He. destruct (He _ Hin). lia. }
  assert (Habs : Dict.contains task_id (tasks_db g2) = false).
  { rewrite Hg2. cbn [tasks_db]. apply DictFacts.getitem_None.
    apply DictFacts.getitem_delitem_same. now destruct Hwf. }
  split; [|split].
  - rewrite get_task_absent; [reflexivity|]. now apply absent_run.
  - intros Hin. apply (created_ids_run tr2 g2) in Hin. lia.
  - apply created_ids_run.
Qed.

Lemma deleted_id_never_reused_witness :
  fst (get_task 1
         (run [GET_task 1; POST_tasks 110 (TaskCreate_new "Second task" None)]
              (snd (delete_task 1
                 (run [POST_tasks 100 (TaskCreate_new "Write docs" None)]
                      initial)))))
  = Raised (NotFound 1).
Proof.
  exact (proj1 (deleted_id_never_reused
                  [POST_tasks 100 (TaskCreate_new "Write docs" None)]
                  [GET_task 1; POST_tasks 110 (TaskCreate_new "Second task" None)]
                  1 eq_refl)).
Defined.

(** C5. After any run from the empty store, [get_tasks] returns as many
    tasks as the run had successful creates minus successful deletes; the
    tasks returned are exactly the stored ones, and no id occurs twice. *)
Theorem get_tasks_length (tr : list request) :
  exists l,
    fst (get_tasks (run tr initial)) = Returned l
    /\ Z.of_nat (List.length l)
       = count created (log tr initial) - count deleted (log tr initial)
    /\ NoDup (map id l)
    /\ forall t, In t l <->
                 Dict.getitem (id t) (tasks_db (run tr initial)) = Some t.
Proof.
  assert (Hwf : wf (run tr initial)) by (apply wf_run, wf_initial).
  rewrite get_tasks_eq. cbn [fst]. eexists. split; [reflexivity|].
  split; [|split].
  - unfold Dict.values. rewrite length_map.
    rewrite length_run by apply wf_initial. simpl. lia.
  - rewrite values_ids by assumption.
    apply StronglySorted_lt_NoDup. now destruct Hwf.
  - intros t. destruct Hwf as [Hs He _]. split.
    + unfold Dict.values. intros Hin. apply in_map_iff in Hin.
      destruct Hin as [[k v] [<- Hin]]. cbn [snd].
      rewrite Forall_forall in He. destruct (He _ Hin) as [_ Hid].
      cbn [fst snd] in Hid. rewrite Hid.
      now apply In_getitem_sorted.
    + intros Hget. apply DictFacts.getitem_In in Hget.
      apply (in_map snd _ _ Hget).
Qed.

(** C6. With a clock that never goes back, every task stored after a run
    from the empty store has [created_at <= updated_at].  A create stamps
    both with the clock value it read; an update stamps [updated_at] with
    the clock value it read and keeps [created_at]. *)
Theorem created_at_le_updated_at (tr : list request) :
  clock_monotone tr ->
  Forall (fun t => created_at t <= updated_at t)
         (Dict.values (tasks_db (run tr initial)))
  /\ (forall g now body,
        exists t, fst (create_task now body g) = Returned t
                  /\ created_at t = now /\ updated_at t = now)
  /\ (forall g now task_id body old,
        Dict.getitem task_id (tasks_db g) = Some old ->
        exists new,
          fst (update_task_status now task_id body g) = Returned new
          /\ updated_at new = now /\ created_at new = created_at old).
Proof.
  intros Hmono. split; [|split].
  - destruct (upper_bound (readings tr)) as [hi Hb].
    assert (Hst := stamped_from_initial tr hi Hmono Hb).
    unfold stamped in Hst. eapply Forall_impl; [|exact Hst].
    simpl. intros t [H _]. exact H.
  - intros g now body. rewrite create_task_eq. cbn [fst].
    eexists. repeat split.
  - intros g now task_id body old Hold.
    rewrite (update_task_status_present g now task_id body old Hold).
    cbn [fst]. eexists. repeat split.
Qed.

Lemma created_at_le_updated_at_witness :
  Forall (fun t => created_at t <= updated_at t)
         (Dict.values (tasks_db
            (run [POST_tasks 100 (TaskCreate_new "Write docs" None);
                  PUT_task 105 1 (mkTaskUpdate COMPLETED)] initial))).
Proof.
  refine (proj1 (created_at_le_updated_at
            [POST_tasks 100 (TaskCreate_new "Write docs" None);
             PUT_task 105 1 (mkTaskUpdate COMPLETED)] _)).
  unfold clock_monotone. simpl. repeat constructor. discriminate.
Defined.

(** Without the hypothesis the bound fails: a clock set back between a
    create and an update leaves [updated_at] before [created_at]. *)
Example clock_set_back :
  Dict.values (tasks_db
    (run [POST_tasks 100 (TaskCreate_new "Write docs" None);
          PUT_task 90 1 (mkTaskUpdate COMPLETED)] initial))
  = [mkTask 1 "Write docs" COMPLETED 100 90].
Proof. reflexivity. Qed.

(** C8. On an id absent from the store, update and delete raise and leave
    the globals (the mapping and the counter) exactly as they were. *)
Theorem failed_update_delete_keep_globals
    (g : globals) (task_id : Z) (now : datetime) (body : TaskUpdate) :
  Dict.contains task_id (tasks_db g) = false ->
  (is_returned (fst (update_task_status now task_id body g)) = false
   /\ snd (update_task_status now task_id body g) = g)
  /\ (is_returned (fst (delete_task task_id g)) = false
      /\ snd (delete_task task_id g) = g).
Proof.
  intros Habs.
  rewrite update_task_status_absent, delete_task_absent by assumption.
  repeat split.
Qed.

Lemma failed_update_delete_keep_globals_witness :
  snd (update_task_status 120 9999 (mkTaskUpdate CANCELLED)
         (run scenario initial)) = run scenario initial
  /\ snd (delete_task 9999 (run scenario initial)) = run scenario initial.
Proof.
  destruct (failed_update_delete_keep_globals (run scenario initial) 9999 120
              (mkTaskUpdate CANCELLED) eq_refl) as [[_ Hu] [_ Hd]].
  split; [exact Hu | exact Hd].
Defined.

(** C9. An update or a delete that returns leaves the counter and the
    entry of every other id as they were (an update also leaves the order
    of the keys); a create in a reachable store appends one entry under a
    key that was absent and leaves every entry already there as it was. *)
Theorem handlers_frame
    (g : globals) (now : datetime) (task_id : Z)
    (body_u : TaskUpdate) (body_c : TaskCreate) :
  (is_returned (fst (update_task_status now task_id body_u g)) = true ->
   let g' := snd (update_task_status now task_id body_u g) in
   task_id_counter g' = task_id_counter g
   /\ Dict.keys (tasks_db g') = Dict.keys (tasks_db g)
   /\ forall k, k <> task_id ->
        Dict.getitem k (tasks_db g') = Dict.getitem k (tasks_db g))
  /\ (is_returned (fst (delete_task task_id g)) = true ->
      let g' := snd (delete_task task_id g) in
      task_id_counter g' = task_id_counter g
      /\ forall k, k <> task_id ->
           Dict.getitem k (tasks_db g') = Dict.getitem k (tasks_db g))
  /\ (reachable g ->
      let g' := snd (create_task now body_c g) in
      Dict.contains (task_id_counter g + 1) (tasks_db g) = false
      /\ (exists t,
            fst (create_task now body_c g) = Returned t
            /\ tasks_db g' = tasks_db g ++ [(task_id_counter g + 1, t)])
      /\ forall k, Dict.contains k (tasks_db g) = true ->
           Dict.getitem k (tasks_db g') = Dict.getitem k (tasks_db g)).
Proof.
  split; [|split].
  - destruct (Dict.getitem task_id (tasks_db g)) as [t|] eqn:E.
    + rewrite (update_task_status_present g now task_id body_u t E).
      intros _ g'. unfold g'. cbn [snd tasks_db task_id_counter].
      split; [reflexivity|]. split.
      * apply DictFacts.keys_setitem_present.
        apply DictFacts.contains_getitem; eauto.
      * intros k Hk. now apply DictFacts.getitem_setitem_other.
    + apply DictFacts.getitem_None in E.
      rewrite update_task_status_absent by assumption. discriminate.
  - destruct (Dict.contains task_id (tasks_db g)) eqn:E.
    + rewrite delete_task_present by assumption.
      intros _ g'. unfold g'. cbn [snd tasks_db task_id_counter].
      split; [reflexivity|].
      intros k Hk. now apply DictFacts.getitem_delitem_other.
    + rewrite delete_task_absent by assumption. discriminate.
  - intros Hreach g'. apply reachable_wf in Hreach.
    assert (Habs : Dict.contains (task_id_counter g + 1) (tasks_db g) = false)
      by (apply wf_counter_absent; [assumption | lia]).
    unfold g'. rewrite create_task_eq. cbn [fst snd tasks_db].
    split; [assumption|]. split.
    + eexists. split; [reflexivity|].
      now apply DictFacts.setitem_absent.
    + intros k Hk. apply DictFacts.getitem_setitem_other.
      intros ->. congruence.
Qed.

Lemma handlers_frame_witness :
  (Dict.getitem 2
     (tasks_db (snd (update_task_status 120 1 (mkTaskUpdate COMPLETED)
        (run [POST_tasks 100 (TaskCreate_new "Write docs" None);
              POST_tasks 110 (TaskCreate_new "Second task" None)] initial))))
   = Some (mkTask 2 "Second task" PENDING 110 110))
  /\ (Dict.getitem 2
        (tasks_db (snd (delete_task 1
           (run [POST_tasks 100 (TaskCreate_new "Write docs" None);
                 POST_tasks 110 (TaskCreate_new "Second task" None)] initial))))
      = Some (mkTask 2 "Second task" PENDING 110 110))
  /\ (Dict.getitem 2
        (tasks_db (snd (create_task 130 (TaskCreate_new "Third task" None)
           (run [POST_tasks 100 (TaskCreate_new "Write docs" None);
                 POST_tasks 110 (TaskCreate_new "Second task" None)] initial))))
      = Some (mkTask 2 "Second task" PENDING 110 110)).
Proof.
  destruct (handlers_frame
              (run [POST_tasks 100 (TaskCreate_new "Write docs" None);
                    POST_tasks 110 (TaskCreate_new "Second task" None)] initial)
              120 1 (mkTaskUpdate COMPLETED) (TaskCreate_new "Third task" None))
    as [Hu [Hd _]].
  destruct (handlers_frame
              (run [POST_tasks 100 (TaskCreate_new "Write docs" None);
                    POST_tasks 110 (TaskCreate_new "Second task" None)] initial)
              130 1 (mkTaskUpdate COMPLETED) (TaskCreate_new "Third task" None))
    as [_ [_ Hc]].
  split; [|split].
  - destruct (Hu eq_refl) as [_ [_ H]]. rewrite (H 2); [reflexivity | lia].
  - destruct (Hd eq_refl) as [_ H]. rewrite (H 2); [reflexivity | lia].
  - destruct (Hc (ex_intro _ _ eq_refl)) as [_ [_ H]].
    rewrite (H 2); reflexivity.
Defined.

(** C10. After any run from the empty store, [get_tasks] returns the
    stored tasks in ascending order of id; ids are handed out in
    ascending order of creation and every stored id is one of them, so
    the listing follows the order in which the tasks still present were
    created. *)
Theorem get_tasks_creation_order (tr : list request) :
  exists l,
    fst (get_tasks (run tr initial)) = Returned l
    /\ l = map snd (tasks_db (run tr initial))
    /\ StronglySorted Z.lt (map id l)
    /\ StronglySorted Z.lt (created_ids (log tr initial))
    /\ incl (map id l) (created_ids (log tr initial)).
Proof.
  assert (Hwf : wf (run tr initial)) by (apply wf_run, wf_initial).
  rewrite get_tasks_eq. cbn [fst]. eexists. split; [reflexivity|].
  split; [reflexivity|]. fold (Dict.values (tasks_db (run tr initial))).
  rewrite values_ids by assumption.
  destruct (created_ids_run tr initial) as [Hs Hin].
  destruct Hwf as [Hk He _].
  split; [assumption|]. split; [assumption|].
  intros k Hkin. apply Hin. cbn [initial task_id_counter].
  unfold Dict.keys in Hkin. apply in_map_iff in Hkin.
  destruct Hkin as [kv [<- Hkv]].
  rewrite Forall_forall in He. destruct (He _ Hkv). lia.
Qed.

(** An update leaves a task at its place in the listing. *)
Example update_keeps_position :
  map id (Dict.values (tasks_db
    (run [POST_tasks 100 (TaskCreate_new "Write docs" None);
          POST_tasks 110 (TaskCreate_new "Second task" None);
          POST_tasks 120 (TaskCreate_new "Third task" None);
          PUT_task 130 1 (mkTaskUpdate COMPLETED);
          DELETE_task 2] initial)))
  = [1; 3].
Proof. reflexivity. Qed.

(** * Further properties of the handlers *)

(** ** Round trips through the store *)

(** X1. Whatever the globals, a create returns a task that carries the
    description and the status of the request body, and a get on the id
    of that task, served next, returns that very task. *)
Theorem create_task_then_get_task
    (g : globals) (now : datetime) (body : TaskCreate) :
  exists t,
    fst (create_task now body g) = Returned t
    /\ description t = tc_description body
    /\ status t = tc_status body
    /\ get_task (id t) (snd (create_task now body g))
       = (Returned t, snd (create_task now body g)).
Proof.
  rewrite create_task_eq. cbn [fst snd]. eexists.
  split; [reflexivity|]. cbn [description status id].
  split; [reflexivity|]. split; [reflexivity|].
  apply get_task_present. cbn [tasks_db].
  apply DictFacts.getitem_setitem_same.
Qed.

(** X2. When an update returns a task, that task has the status of the
    request body and the clock value of the call as [updated_at], and a
    get on the same id, served next, returns that very task. *)
Theorem update_task_status_then_get_task
    (g : globals) (now : datetime) (task_id : Z) (body : TaskUpdate)
    (new : Task) :
  fst (update_task_status now task_id body g) = Returned new ->
  status new = tu_status body
  /\ updated_at new = now
  /\ get_task task_id (snd (update_task_status now task_id body g))
     = (Returned new, snd (update_task_status now task_id body g)).
Proof.
  destruct (Dict.getitem task_id (tasks_db g)) as [t|] eqn:E.
  - rewrite (update_task_status_present g now task_id body t E).
    cbn [fst snd]. intros [= <-]. cbn [status updated_at].
    split; [reflexivity|]. split; [reflexivity|].
    apply get_task_present. cbn [tasks_db].
    apply DictFacts.getitem_setitem_same.
  - apply DictFacts.getitem_None in E.
    rewrite update_task_status_absent by assumption. discriminate.
Qed.

Lemma update_task_status_then_get_task_witness :
  get_task 1 (snd (update_task_status 105 1 (mkTaskUpdate COMPLETED)
     (run [POST_tasks 100 (TaskCreate_new "Write docs" None)] initial)))
  = (Returned (mkTask 1 "Write docs" COMPLETED 100 105),
     snd (update_task_status 105 1 (mkTaskUpdate COMPLETED)
        (run [POST_tasks 100 (TaskCreate_new "Write docs" None)] initial))).
Proof.
  exact (proj2 (proj2 (update_task_status_then_get_task
     (run [POST_tasks 100 (TaskCreate_new "Write docs" None)] initial)
     105 1 (mkTaskUpdate COMPLETED)
     (mkTask 1 "Write docs" COMPLETED 100 105) eq_refl))).
Defined.

(** ** Handlers that only read *)

(** X3. The health check, the listing, the get by id and the
    [ValueError] handler never write the globals, whether they return or
    raise; the health check, the listing and the [ValueError] handler
    always return, the last one an [HTTPException] with status 400 and
    the text of the error as detail. *)
Theorem reading_handlers_keep_globals
    (g : globals) (task_id : Z) (str_exc : string) :
  snd (root g) = g
  /\ snd (get_tasks g) = g
  /\ snd (get_task task_id g) = g
  /\ snd (value_error_handler tt str_exc g) = g
  /\ is_returned (fst (root g)) = true
  /\ is_returned (fst (get_tasks g)) = true
  /\ fst (value_error_handler tt str_exc g)
     = Returned (HTTPException 400 str_exc).
Proof.
  repeat split. apply get_task_globals.
Qed.

(** ** What a request can raise *)

Lemma fst_serve_GET_task g task_id :
  fst (serve (GET_task task_id) g) =
  match Dict.getitem task_id (tasks_db g) with
  | Some t => Returned (ReplyTask t)
  | None => Raised (NotFound task_id)
  end.
Proof.
  unfold serve, bind. destruct (Dict.getitem task_id (tasks_db g)) eqn:E.
  - now rewrite (get_task_present g task_id _ E).
  - apply DictFacts.getitem_None in E. now rewrite get_task_absent.
Qed.

Lemma fst_serve_PUT g now task_id body :
  fst (serve (PUT_task now task_id body) g) =
  match Dict.getitem task_id (tasks_db g) with
  | Some t => Returned (ReplyTask (mkTask (id t) (description t)
                                          (tu_status body) (created_at t) now))
  | None => Raised (NotFound task_id)
  end.
Proof.
  unfold serve, bind. destruct (Dict.getitem task_id (tasks_db g)) eqn:E.
  - now rewrite (update_task_status_present g now task_id body _ E).
  - apply DictFacts.getitem_None in E.
    now rewrite update_task_status_absent.
Qed.

(** X4. A request raises exactly when its path names an id absent from
    the store.  What it raises is then the 404 for that id, never a
    [KeyError] and never anything else, and the globals are left as they
    were. *)
Theorem serve_raises_only_not_found
    (r : request) (g : globals) (e : exception) :
  (fst (serve r g) = Raised e ->
   snd (serve r g) = g
   /\ exists task_id,
        target r = Some task_id
        /\ Dict.contains task_id (tasks_db g) = false
        /\ e = NotFound task_id)
  /\ (forall task_id,
        target r = Some task_id ->
        Dict.contains task_id (tasks_db g) = false ->
        fst (serve r g) = Raised (NotFound task_id)).
Proof.
  split.
  - rewrite snd_serve.
    destruct r as [now body| |task_id|now task_id body|task_id].
    + rewrite fst_serve_POST. discriminate.
    + cbn. discriminate.
    + rewrite fst_serve_GET_task.
      destruct (Dict.getitem task_id (tasks_db g)) eqn:E; [discriminate|].
      intros [= <-]. split; [reflexivity|]. exists task_id.
      repeat split. now apply DictFacts.getitem_None.
    + rewrite fst_serve_PUT.
      destruct (Dict.getitem task_id (tasks_db g)) eqn:E; [discriminate|].
      apply DictFacts.getitem_None in E.
      intros [= <-]. rewrite update_task_status_absent by assumption.
      split; [reflexivity|]. exists task_id. repeat split. assumption.
    + rewrite fst_serve_DELETE.
      destruct (Dict.contains task_id (tasks_db g)) eqn:E; [discriminate|].
      intros [= <-]. rewrite delete_task_absent by assumption.
      split; [reflexivity|]. exists task_id. repeat split. assumption.
  - intros task_id Ht Habs.
    destruct r as [now body| |k|now k body|k]; cbn [target] in Ht;
      try discriminate; injection Ht as ->.
    + rewrite fst_serve_GET_task.
      apply DictFacts.getitem_None in Habs. now rewrite Habs.
    + rewrite fst_serve_PUT.
      apply DictFacts.getitem_None in Habs. now rewrite Habs.
    + rewrite fst_serve_DELETE. now rewrite Habs.
Qed.

Lemma serve_raises_only_not_found_witness :
  snd (serve (DELETE_task 9999) (run scenario initial)) = run scenario initial
  /\ fst (serve (PUT_task 120 1 (mkTaskUpdate CANCELLED)) (run scenario initial))
     = Raised (NotFound 1).
Proof.
  split.
  - exact (proj1 (proj1 (serve_raises_only_not_found (DELETE_task 9999)
             (run scenario initial) (NotFound 9999)) eq_refl)).
  - exact (proj2 (serve_raises_only_not_found
             (PUT_task 120 1 (mkTaskUpdate CANCELLED))
             (run scenario initial) (NotFound 1)) 1 eq_refl eq_refl).
Defined.

(** ** The counter and the ids *)

Lemma counter_created_run tr : forall g,
  task_id_counter (run tr g)
  = task_id_counter g + count created (log tr g)
  /\ created_ids (log tr g)
     = Zrange (task_id_counter g + 1)
              (List.length (filter created (log tr g))).
Proof.
  induction tr as [|r tr IH]; intros g.
  - unfold count. simpl. split; [lia | reflexivity].
  - destruct (IH (snd (serve r g))) as [Hc Hids].
    rewrite counter_serve in Hc, Hids.
    cbn [run log]. rewrite count_cons.
    destruct r as [now body| |task_id|now task_id body|task_id];
      try (cbn [created created_ids filter]; split; [lia | exact Hids]).
    rewrite fst_serve_POST.
    cbn [created created_ids filter List.length Zrange id].
    split; [lia | now rewrite Hids].
Qed.

(** X5. After any run from the empty store the counter is the number of
    creates served, the ids they handed out are 1, 2, ... up to the
    counter in that order, and the store holds at most as many tasks as
    the counter says. *)
Theorem counter_counts_creates (tr : list request) :
  task_id_counter (run tr initial) = count created (log tr initial)
  /\ created_ids (log tr initial)
     = Zrange 1 (Z.to_nat (task_id_counter (run tr initial)))
  /\ Z.of_nat (List.length (tasks_db (run tr initial)))
     <= task_id_counter (run tr initial).
Proof.
  destruct (counter_created_run tr initial) as [Hc Hids].
  cbn [initial task_id_counter] in Hc, Hids.
  assert (Hlen := length_run tr initial wf_initial).
  cbn [initial tasks_db Dict.empty List.length] in Hlen.
  split; [lia|]. split.
  - rewrite Hids, Hc. unfold count. f_equal. lia.
  - unfold count in *. lia.
Qed.

(** X6. After any run from the empty store, an id that is not positive
    or lies above the counter was never handed out: get, update and
    delete on it raise the 404. *)
Theorem never_issued_id_not_found
    (tr : list request) (task_id : Z) (now : datetime) (body : TaskUpdate) :
  task_id <= 0 \/ task_id_counter (run tr initial) < task_id ->
  fst (get_task task_id (run tr initial)) = Raised (NotFound task_id)
  /\ fst (update_task_status now task_id body (run tr initial))
     = Raised (NotFound task_id)
  /\ fst (delete_task task_id (run tr initial)) = Raised (NotFound task_id).
Proof.
  intros Hout.
  assert (Hwf : wf (run tr initial)) by (apply wf_run, wf_initial).
  assert (Habs : Dict.contains task_id (tasks_db (run tr initial)) = false).
  { apply DictFacts.contains_false_In. intros Hin.
    unfold Dict.keys in Hin. apply in_map_iff in Hin.
    destruct Hin as [kv [<- Hin]]. destruct Hwf as [_ He _].
    rewrite Forall_forall in He. destruct (He _ Hin). lia. }
  rewrite get_task_absent, update_task_status_absent, delete_task_absent
    by assumption.
  repeat split.
Qed.

Lemma never_issued_id_not_found_witness :
  fst (get_task 9999 (run scenario initial)) = Raised (NotFound 9999)
  /\ fst (delete_task 0 (run scenario initial)) = Raised (NotFound 0).
Proof.
  split.
  - refine (proj1 (never_issued_id_not_found scenario 9999 0
                     (mkTaskUpdate PENDING) _)).
    right. vm_compute. reflexivity.
  - refine (proj2 (proj2 (never_issued_id_not_found scenario 0 0
                     (mkTaskUpdate PENDING) _))).
    left. lia.
Defined.

(** X7. After any run from the empty store, the task a get returns has
    the id that was asked for, that id is one the counter has handed
    out, and the task is in the listing. *)
Theorem get_task_returns_requested_id
    (tr : list request) (task_id : Z) (t : Task) :
  fst (get_task task_id (run tr initial)) = Returned t ->
  id t = task_id
  /\ 0 < task_id <= task_id_counter (run tr initial)
  /\ In t (Dict.values (tasks_db (run tr initial))).
Proof.
  assert (Hwf : wf (run tr initial)) by (apply wf_run, wf_initial).
  destruct (Dict.getitem task_id (tasks_db (run tr initial))) as [t0|] eqn:E.
  - rewrite (get_task_present _ task_id t0 E). cbn [fst]. intros [= <-].
    apply DictFacts.getitem_In in E. destruct Hwf as [_ He _].
    rewrite Forall_forall in He. destruct (He _ E) as [Hk Hid].
    cbn [fst snd] in Hk, Hid.
    split; [assumption|]. split; [assumption|].
    apply (in_map snd _ _ E).
  - apply DictFacts.getitem_None in E.
    rewrite get_task_absent by assumption. discriminate.
Qed.

Lemma get_task_returns_requested_id_witness :
  id (mkTask 2 "Second task" PENDING 110 110) = 2
  /\ 0 < 2 <= task_id_counter (run scenario initial)
  /\ In (mkTask 2 "Second task" PENDING 110 110)
        (Dict.values (tasks_db (run scenario initial))).
Proof.
  exact (get_task_returns_requested_id scenario 2
           (mkTask 2 "Second task" PENDING 110 110) eq_refl).
Defined.

(** X8. In any run from the empty store, once a delete has returned for
    an id, every later update and every later delete of that id raises
    the 404, whatever was served in between: a delete cannot be repeated
    and a deleted task cannot be revived by an update. *)
Theorem deleted_id_stays_not_found
    (tr1 tr2 : list request) (task_id : Z) (now : datetime)
    (body : TaskUpdate) :
  fst (delete_task task_id (run tr1 initial)) = Returned tt ->
  let g := run tr2 (snd (delete_task task_id (run tr1 initial))) in
  update_task_status now task_id body g = (Raised (NotFound task_id), g)
  /\ delete_task task_id g = (Raised (NotFound task_id), g).
Proof.
  intros Hdel g.
  assert (Hwf : wf (run tr1 initial)) by (apply wf_run, wf_initial).
  assert (Hpres := delete_task_returned _ _ Hdel).
  assert (Habs : Dict.contains task_id (tasks_db g) = false).
  { unfold g. rewrite delete_task_present by assumption. cbn [snd].
    apply absent_run; cbn [tasks_db task_id_counter].
    - apply DictFacts.getitem_None, DictFacts.getitem_delitem_same.
      now destruct Hwf.
    - destruct Hwf as [_ He _]. apply DictFacts.contains_In in Hpres.
      unfold Dict.keys in Hpres. apply in_map_iff in Hpres.
      destruct Hpres as [kv [<- Hin]].
      rewrite Forall_forall in He. destruct (He _ Hin). lia. }
  split.
  - now apply update_task_status_absent.
  - now apply delete_task_absent.
Qed.

Lemma deleted_id_stays_not_found_witness :
  delete_task 1
    (run [POST_tasks 110 (TaskCreate_new "Second task" None)]
       (snd (delete_task 1
          (run [POST_tasks 100 (TaskCreate_new "Write docs" None)] initial))))
  = (Raised (NotFound 1),
     run [POST_tasks 110 (TaskCreate_new "Second task" None)]
       (snd (delete_task 1
          (run [POST_tasks 100 (TaskCreate_new "Write docs" None)] initial)))).
Proof.
  exact (proj2 (deleted_id_stays_not_found
     [POST_tasks 100 (TaskCreate_new "Write docs" None)]
     [POST_tasks 110 (TaskCreate_new "Second task" None)]
     1 0 (mkTaskUpdate PENDING) eq_refl)).
Defined.

(** ** What never changes in a stored task *)

Lemma fields_serve r g k t t' :
  wf g ->
  Dict.getitem k (tasks_db g) = Some t ->
  Dict.getitem k (tasks_db (snd (serve r g))) = Some t' ->
  id t' = id t /\ description t' = description t
  /\ created_at t' = created_at t.
Proof.
  intros Hwf Ht. rewrite snd_serve.
  assert (Hk : Dict.contains k (tasks_db g) = true)
    by (apply DictFacts.contains_getitem; eauto).
  destruct r as [now body| |task_id|now task_id body|task_id].
  - rewrite create_task_eq. cbn [snd tasks_db].
    rewrite DictFacts.getitem_setitem_other.
    + rewrite Ht. intros [= <-]. auto.
    + intros ->.
      rewrite (wf_counter_absent g (task_id_counter g + 1)) in Hk
        by (assumption || lia).
      discriminate.
  - rewrite Ht. intros [= <-]. auto.
  - rewrite Ht. intros [= <-]. auto.
  - destruct (Dict.getitem task_id (tasks_db g)) as [old|] eqn:E.
    + rewrite (update_task_status_present g now task_id body old E).
      cbn [snd tasks_db]. destruct (Z.eq_dec k task_id) as [->|Hne].
      * rewrite DictFacts.getitem_setitem_same. intros [= <-].
        rewrite E in Ht. injection Ht as ->. auto.
      * rewrite DictFacts.getitem_setitem_other by assumption.
        rewrite Ht. intros [= <-]. auto.
    + apply DictFacts.getitem_None in E.
      rewrite update_task_status_absent by assumption. cbn [snd].
      rewrite Ht. intros [= <-]. auto.
  - destruct (Dict.contains task_id (tasks_db g)) eqn:E.
    + rewrite delete_task_present by assumption. cbn [snd tasks_db].
      destruct (Z.eq_dec k task_id) as [->|Hne].
      * rewrite DictFacts.getitem_delitem_same by (now destruct Hwf).
        discriminate.
      * rewrite DictFacts.getitem_delitem_other by assumption.
        rewrite Ht. intros [= <-]. auto.
    + rewrite delete_task_absent by assumption. cbn [snd].
      rewrite Ht. intros [= <-]. auto.
Qed.

Lemma fields_run tr : forall g k t t',
  wf g ->
  Dict.getitem k (tasks_db g) = Some t ->
  Dict.getitem k (tasks_db (run tr g)) = Some t' ->
  id t' = id t /\ description t' = description t
  /\ created_at t' = created_at t.
Proof.
  induction tr as [|r tr IH]; cbn [run]; intros g k t t' Hwf Ht Ht'.
  - rewrite Ht in Ht'. injection Ht' as <-. auto.
  - destruct (Dict.getitem k (tasks_db (snd (serve r g)))) as [t1|] eqn:E.
    + destruct (fields_serve r g k t t1 Hwf Ht E) as [H1 [H2 H3]].
      destruct (IH _ k t1 t' (wf_serve r g Hwf) E Ht') as [H4 [H5 H6]].
      repeat split; congruence.
    + apply DictFacts.getitem_None in E.
      assert (Hle : k <= task_id_counter (snd (serve r g))).
      { rewrite counter_serve. destruct Hwf as [_ He _].
        apply DictFacts.getitem_In in Ht. rewrite Forall_forall in He.
        destruct (He _ Ht) as [Hk _]. cbn [fst] in Hk. destruct r; lia. }
      assert (Habs := absent_run tr _ k E Hle).
      apply DictFacts.getitem_None in Habs. congruence.
Qed.

(** X9. In any run from the empty store, a task found under an id at
    one point and a task found under the same id at any later point
    agree on id, description and [created_at]: no sequence of requests
    changes them, and no other task ever takes over the id. *)
Theorem task_fields_never_change
    (tr1 tr2 : list request) (task_id : Z) (t t' : Task) :
  Dict.getitem task_id (tasks_db (run tr1 initial)) = Some t ->
  Dict.getitem task_id (tasks_db (run tr2 (run tr1 initial))) = Some t' ->
  id t' = id t /\ description t' = description t
  /\ created_at t' = created_at t.
Proof.
  apply fields_run. apply wf_run, wf_initial.
Qed.

Lemma task_fields_never_change_witness :
  id (mkTask 1 "Write docs" COMPLETED 100 105)
  = id (mkTask 1 "Write docs" PENDING 100 100)
  /\ description (mkTask 1 "Write docs" COMPLETED 100 105)
     = description (mkTask 1 "Write docs" PENDING 100 100)
  /\ created_at (mkTask 1 "Write docs" COMPLETED 100 105)
     = created_at (mkTask 1 "Write docs" PENDING 100 100).
Proof.
  exact (task_fields_never_change
           [POST_tasks 100 (TaskCreate_new "Write docs" None)]
           [PUT_task 105 1 (mkTaskUpdate COMPLETED)] 1
           (mkTask 1 "Write docs" PENDING 100 100)
           (mkTask 1 "Write docs" COMPLETED 100 105) eq_refl eq_refl).
Defined.

(** ** How updates and deletes compose *)

Lemma setitem_setitem k v1 v2 d :
  Dict.setitem k v2 (Dict.setitem k v1 d) = Dict.setitem k v2 d.
Proof.
  induction d as [|[k' v'] d IH]; simpl.
  - now rewrite Z.eqb_refl.
  - destruct (Z.eqb k k') eqn:E; simpl.
    + now rewrite Z.eqb_refl.
    + now rewrite E, IH.
Qed.

Ltac eqb_cases :=
  repeat match goal with
         | |- context [Z.eqb ?a ?b] => destruct (Z.eqb_spec a b)
         end.

Lemma setitem_delitem_comm k1 k2 v d :
  k1 <> k2 ->
  Dict.setitem k1 v (Dict.delitem k2 d) = Dict.delitem k2 (Dict.setitem k1 v d).
Proof.
  intros Hne. induction d as [|[k' v'] d IH]; simpl.
  - eqb_cases; congruence.
  - eqb_cases; simpl; eqb_cases; congruence.
Qed.

Lemma setitem_setitem_comm k1 k2 v1 v2 d :
  k1 <> k2 ->
  Dict.contains k1 d = true -> Dict.contains k2 d = true ->
  Dict.setitem k1 v1 (Dict.setitem k2 v2 d)
  = Dict.setitem k2 v2 (Dict.setitem k1 v1 d).
Proof.
  intros Hne. induction d as [|[k' v'] d IH]; simpl; [discriminate|].
  destruct (Z.eqb_spec k1 k') as [->|H1];
    destruct (Z.eqb_spec k2 k') as [->|H2]; simpl; intros Hc1 Hc2;
    eqb_cases; try congruence.
  now rewrite IH.
Qed.

(** X10. The last update wins: whatever the globals, an update served
    right after another update of the same id gives the same reply and
    leaves the same globals as if the earlier update had not been
    served. *)
Theorem update_task_status_last_wins
    (g : globals) (now1 now2 : datetime) (task_id : Z)
    (body1 body2 : TaskUpdate) :
  update_task_status now2 task_id body2
    (snd (update_task_status now1 task_id body1 g))
  = update_task_status now2 task_id body2 g.
Proof.
  destruct (Dict.getitem task_id (tasks_db g)) as [t|] eqn:E.
  - rewrite (update_task_status_present g now1 task_id body1 t E).
    cbn [snd].
    rewrite (update_task_status_present _ now2 task_id body2
               (mkTask (id t) (description t) (tu_status body1)
                       (created_at t) now1))
      by (cbn [tasks_db]; apply DictFacts.getitem_setitem_same).
    rewrite (update_task_status_present g now2 task_id body2 t E).
    cbn [tasks_db task_id_counter id description created_at].
    now rewrite setitem_setitem.
  - apply DictFacts.getitem_None in E.
    now rewrite (update_task_status_absent g now1) by assumption.
Qed.

(** X11. Requests on different ids do not interfere.  Whatever the
    globals, an update of one id and a delete of another give the same
    replies and leave the same globals in either order, and so do two
    updates of different ids. *)
Theorem requests_on_distinct_ids_commute
    (g : globals) (now1 now2 : datetime) (id1 id2 : Z)
    (body1 body2 : TaskUpdate) :
  id1 <> id2 ->
  (fst (update_task_status now1 id1 body1 (snd (delete_task id2 g)))
   = fst (update_task_status now1 id1 body1 g)
   /\ fst (delete_task id2 (snd (update_task_status now1 id1 body1 g)))
      = fst (delete_task id2 g)
   /\ snd (delete_task id2 (snd (update_task_status now1 id1 body1 g)))
      = snd (update_task_status now1 id1 body1 (snd (delete_task id2 g))))
  /\ (fst (update_task_status now1 id1 body1
             (snd (update_task_status now2 id2 body2 g)))
      = fst (update_task_status now1 id1 body1 g)
      /\ snd (update_task_status now1 id1 body1
                (snd (update_task_status now2 id2 body2 g)))
         = snd (update_task_status now2 id2 body2
                  (snd (update_task_status now1 id1 body1 g)))).
Proof.
  intros Hne.
  assert (Hne' : id2 <> id1) by congruence.
  destruct (Dict.getitem id1 (tasks_db g)) as [t1|] eqn:E1.
  - rewrite (update_task_status_present g now1 id1 body1 t1 E1). cbn [snd fst].
    split.
    + destruct (Dict.contains id2 (tasks_db g)) eqn:E2.
      * rewrite (delete_task_present g) by assumption. cbn [snd fst].
        rewrite (update_task_status_present _ now1 id1 body1 t1)
          by (cbn [tasks_db];
              now rewrite DictFacts.getitem_delitem_other).
        rewrite delete_task_present
          by (cbn [tasks_db]; now rewrite contains_setitem_other).
        cbn [fst snd tasks_db task_id_counter].
        repeat split. now rewrite setitem_delitem_comm.
      * rewrite (delete_task_absent g) by assumption. cbn [snd fst].
        rewrite (update_task_status_present g now1 id1 body1 t1 E1).
        rewrite delete_task_absent
          by (cbn [tasks_db]; now rewrite contains_setitem_other).
        repeat split.
    + destruct (Dict.getitem id2 (tasks_db g)) as [t2|] eqn:E2.
      * rewrite (update_task_status_present g now2 id2 body2 t2 E2).
        cbn [snd].
        rewrite (update_task_status_present _ now1 id1 body1 t1)
          by (cbn [tasks_db]; now rewrite DictFacts.getitem_setitem_other).
        rewrite (update_task_status_present _ now2 id2 body2 t2)
          by (cbn [tasks_db]; now rewrite DictFacts.getitem_setitem_other).
        cbn [fst snd tasks_db task_id_counter]. split; [reflexivity|].
        f_equal. apply setitem_setitem_comm; try assumption;
          apply DictFacts.contains_getitem; eauto.
      * apply DictFacts.getitem_None in E2.
        rewrite (update_task_status_absent g now2 id2) by assumption.
        cbn [snd].
        rewrite (update_task_status_present g now1 id1 body1 t1 E1).
        cbn [fst snd].
        rewrite update_task_status_absent
          by (cbn [tasks_db]; now rewrite contains_setitem_other).
        split; reflexivity.
  - apply DictFacts.getitem_None in E1.
    rewrite (update_task_status_absent g now1 id1) by assumption.
    cbn [snd fst]. split.
    + destruct (Dict.contains id2 (tasks_db g)) eqn:E2.
      * rewrite (delete_task_present g) by assumption. cbn [snd fst].
        rewrite update_task_status_absent
          by (cbn [tasks_db]; now apply contains_delitem_false).
        repeat split.
      * rewrite (delete_task_absent g) by assumption. cbn [snd fst].
        rewrite update_task_status_absent by assumption. repeat split.
    + destruct (Dict.getitem id2 (tasks_db g)) as [t2|] eqn:E2.
      * rewrite (update_task_status_present g now2 id2 body2 t2 E2).
        cbn [snd].
        rewrite update_task_status_absent
          by (cbn [tasks_db]; now rewrite contains_setitem_other).
        split; reflexivity.
      * apply DictFacts.getitem_None in E2.
        rewrite (update_task_status_absent g now2 id2) by assumption.
        cbn [snd].
        rewrite update_task_status_absent by assumption.
        split; reflexivity.
Qed.

Lemma requests_on_distinct_ids_commute_witness :
  snd (delete_task 2 (snd (update_task_status 120 1 (mkTaskUpdate COMPLETED)
     (run [POST_tasks 100 (TaskCreate_new "Write docs" None);
           POST_tasks 110 (TaskCreate_new "Second task" None)] initial))))
  = snd (update_task_status 120 1 (mkTaskUpdate COMPLETED) (snd (delete_task 2
     (run [POST_tasks 100 (TaskCreate_new "Write docs" None);
           POST_tasks 110 (TaskCreate_new "Second task" None)] initial)))).
Proof.
  refine (proj2 (proj2 (proj1 (requests_on_distinct_ids_commute
    (run [POST_tasks 100 (TaskCreate_new "Write docs" None);
          POST_tasks 110 (TaskCreate_new "Second task" None)] initial)
    120 125 1 2 (mkTaskUpdate COMPLETED) (mkTaskUpdate CANCELLED) _)))).
  lia.
Defined.

(** ** What a delete and an update do to the listing *)

Lemma values_delitem d c k :
  StronglySorted Z.lt (Dict.keys d) -> Forall (entry_ok c) d ->
  Dict.values (Dict.delitem k d)
  = filter (fun t => negb (Z.eqb (id t) k)) (Dict.values d).
Proof.
  induction d as [|[k' v'] d IH]; simpl; [reflexivity|].
  intros Hs He. inversion Hs as [|? ? Hs' Hall]; subst.
  inversion He as [|? ? [_ Hid] He']; subst. cbn [fst snd] in Hid.
  rewrite Hid. rewrite (Z.eqb_sym k k').
  destruct (Z.eqb_spec k' k) as [->|Hne]; simpl.
  - symmetry. apply forallb_filter_id. apply forallb_forall.
    intros t Ht. unfold Dict.values in Ht. apply in_map_iff in Ht.
    destruct Ht as [kv [<- Hin]].
    rewrite Forall_forall in He', Hall.
    destruct (He' _ Hin) as [_ Hkv]. rewrite Hkv.
    assert (Hlt : k < fst kv) by (apply Hall; now apply in_map).
    destruct (Z.eqb_spec (fst kv) k); [lia | reflexivity].
  - f_equal. now apply IH.
Qed.

Lemma values_setitem_present d c k v :
  StronglySorted Z.lt (Dict.keys d) -> Forall (entry_ok c) d ->
  Dict.contains k d = true ->
  Dict.values (Dict.setitem k v d)
  = map (fun t => if Z.eqb (id t) k then v else t) (Dict.values d).
Proof.
  induction d as [|[k' v'] d IH]; simpl; [discriminate|].
  intros Hs He. inversion Hs as [|? ? Hs' Hall]; subst.
  inversion He as [|? ? [_ Hid] He']; subst. cbn [fst snd] in Hid.
  rewrite Hid. rewrite (Z.eqb_sym k k').
  destruct (Z.eqb_spec k' k) as [->|Hne]; simpl.
  - intros _. f_equal. symmetry.
    rewrite <- (map_id (map snd d)) at 2. apply map_ext_in.
    intros t Ht. apply in_map_iff in Ht. destruct Ht as [kv [<- Hin]].
    rewrite Forall_forall in He', Hall.
    destruct (He' _ Hin) as [_ Hkv]. rewrite Hkv.
    assert (Hlt : k < fst kv) by (apply Hall; now apply in_map).
    destruct (Z.eqb_spec (fst kv) k); [lia | reflexivity].
  - intros Hc. f_equal. now apply IH.
Qed.

(** X12. After any run from the empty store, a delete that returns
    removes from the listing the task with that id and nothing else: the
    listing served next is the listing before without that task, the
    other tasks in the same order. *)
Theorem delete_task_listing (tr : list request) (task_id : Z) :
  fst (delete_task task_id (run tr initial)) = Returned tt ->
  fst (get_tasks (snd (delete_task task_id (run tr initial))))
  = Returned (filter (fun t => negb (Z.eqb (id t) task_id))
                     (Dict.values (tasks_db (run tr initial)))).
Proof.
  intros Hdel. assert (Hpres := delete_task_returned _ _ Hdel).
  assert (Hwf : wf (run tr initial)) by (apply wf_run, wf_initial).
  rewrite get_tasks_eq, delete_task_present by assumption.
  cbn [fst snd tasks_db]. f_equal. destruct Hwf as [Hs He _].
  now apply values_delitem with (c := task_id_counter (run tr initial)).
Qed.

Lemma delete_task_listing_witness :
  fst (get_tasks (snd (delete_task 1
     (run [POST_tasks 100 (TaskCreate_new "Write docs" None);
           POST_tasks 110 (TaskCreate_new "Second task" None)] initial))))
  = Returned [mkTask 2 "Second task" PENDING 110 110].
Proof.
  exact (delete_task_listing
     [POST_tasks 100 (TaskCreate_new "Write docs" None);
      POST_tasks 110 (TaskCreate_new "Second task" None)] 1 eq_refl).
Defined.

(** X13. After any run from the empty store, an update that returns a
    task changes the listing at that task only: the listing served next
    is the listing before with the task of that id replaced, at its
    place, by the task returned. *)
Theorem update_task_status_listing
    (tr : list request) (now : datetime) (task_id : Z) (body : TaskUpdate)
    (new : Task) :
  fst (update_task_status now task_id body (run tr initial)) = Returned new ->
  fst (get_tasks (snd (update_task_status now task_id body (run tr initial))))
  = Returned (map (fun t => if Z.eqb (id t) task_id then new else t)
                  (Dict.values (tasks_db (run tr initial)))).
Proof.
  assert (Hwf : wf (run tr initial)) by (apply wf_run, wf_initial).
  destruct (Dict.getitem task_id (tasks_db (run tr initial))) as [t|] eqn:E.
  - rewrite (update_task_status_present _ now task_id body t E).
    cbn [fst snd]. intros [= <-]. rewrite get_tasks_eq. cbn [fst tasks_db].
    f_equal. destruct Hwf as [Hs He _].
    apply values_setitem_present with (c := task_id_counter (run tr initial));
      try assumption.
    apply DictFacts.contains_getitem; eauto.
  - apply DictFacts.getitem_None in E.
    rewrite update_task_status_absent by assumption. discriminate.
Qed.

Lemma update_task_status_listing_witness :
  fst (get_tasks (snd (update_task_status 120 1 (mkTaskUpdate COMPLETED)
     (run [POST_tasks 100 (TaskCreate_new "Write docs" None);
           POST_tasks 110 (TaskCreate_new "Second task" None)] initial))))
  = Returned [mkTask 1 "Write docs" COMPLETED 100 120;
              mkTask 2 "Second task" PENDING 110 110].
Proof.
  exact (update_task_status_listing
     [POST_tasks 100 (TaskCreate_new "Write docs" None);
      POST_tasks 110 (TaskCreate_new "Second task" None)]
     120 1 (mkTaskUpdate COMPLETED)
     (mkTask 1 "Write docs" COMPLETED 100 120) eq_refl).
Defined.

(** ** The listing and the clock *)







(** ** The status enumeration *)

(** X15. Looking a status up by its string value finds a member exactly
    when the string is that member's value: every member is found again
    from its own value, the four values name four different members, and
    every other string is refused. *)
Theorem TaskStatus_of_value_iff (s : string) (m : TaskStatus) :
  TaskStatus_of_value s = Some m <-> TaskStatus_value m = s.
Proof.
  split.
  - unfold TaskStatus_of_value, TaskStatus_members. cbn [find TaskStatus_value].
    destruct (String.eqb_spec "pending" s) as [<-|H1];
      [intros [= <-]; reflexivity|].
    destruct (String.eqb_spec "in_progress" s) as [<-|H2];
      [intros [= <-]; reflexivity|].
    destruct (String.eqb_spec "completed" s) as [<-|H3];
      [intros [= <-]; reflexivity|].
    destruct (String.eqb_spec "cancelled" s) as [<-|H4];
      [intros [= <-]; reflexivity|].
    discriminate.
  - intros <-. destruct m; reflexivity.
Qed.

Example TaskStatus_of_value_unknown :
  TaskStatus_of_value "done" = None /\ TaskStatus_of_value "PENDING" = None
  /\ TaskStatus_of_value "" = None.
Proof. repeat split. Qed.
